(** * GlobalSettingsComponent (modules/web/src/settings/global/component.ts)

    A shallow embedding of the global-settings form of the dashboard and the
    properties its specification states about it.

    The component is event driven: every method runs to completion on the UI
    thread, and the answers of its collaborators (the settings service, the
    conflict dialog) arrive later as events of their own.  A component is a
    record of its fields, every method is a function on that record, and
    every call the component makes on a collaborator is appended to a log,
    so that ordering properties can be stated on the log. *)

From Stdlib Require Import ZArith String Ascii List Bool Lia.
From stdpp Require Import base option list strings gmap fin_maps fin_map_dom.

Local Open Scope string_scope.
Local Open Scope Z_scope.
Local Open Scope list_scope.

(** ** JavaScript values

    The values that travel through the settings: the fields of a
    [GlobalSettings] object and the values of the form controls.  Numbers
    are the integers the settings hold (page sizes, limits, intervals in
    seconds); [VArr] is an array such as [namespaceFallbackList]. *)

#[local] Set Warnings "-register-all".
Inductive value : Type :=
| VUndefined
| VNull
| VBool (b : bool)
| VNum (n : Z)
| VStr (s : string)
| VArr (l : list value).

(** The induction principle that reaches the elements of an array. *)
Section value_induction.
Variable P : value → Prop.
Hypothesis Hundefined : P VUndefined.
Hypothesis Hnull : P VNull.
Hypothesis Hbool : ∀ b, P (VBool b).
Hypothesis Hnum : ∀ n, P (VNum n).
Hypothesis Hstr : ∀ s, P (VStr s).
Hypothesis Harr : ∀ l, Forall P l → P (VArr l).

Fixpoint value_deep_ind (v : value) : P v :=
  match v with
  | VUndefined => Hundefined
  | VNull => Hnull
  | VBool b => Hbool b
  | VNum n => Hnum n
  | VStr s => Hstr s
  | VArr l =>
      Harr l
        ((fix elems (l : list value) : Forall P l :=
            match l with
            | [] => @List.Forall_nil _ P
            | x :: l' => @List.Forall_cons _ P x l' (value_deep_ind x) (elems l')
            end) l)
  end.
End value_induction.

(** ** lodash [isEqual]

    [isEqual] compares primitives by value, arrays by length and element by
    element, and plain objects by their own keys: the same number of keys,
    and every key of the first present in the second with a deeply equal
    value.  A key whose value is [undefined] is still a key. *)

Fixpoint isEqual_value (a b : value) : bool :=
  match a, b with
  | VUndefined, VUndefined => true
  | VNull, VNull => true
  | VBool x, VBool y => Bool.eqb x y
  | VNum x, VNum y => Z.eqb x y
  | VStr x, VStr y => String.eqb x y
  | VArr xs, VArr ys =>
      (fix equalArrays (xs ys : list value) : bool :=
         match xs, ys with
         | [], [] => true
         | x :: xs', y :: ys' => isEqual_value x y && equalArrays xs' ys'
         | _, _ => false
         end) xs ys
  | _, _ => false
  end.

(** A [GlobalSettings] object: a plain object whose own keys are field
    names.  The component builds objects with eight keys
    ([externalSettings_]), with six ([onFormChange_]) and with none
    ([{} as GlobalSettings]), so the key set is part of the value. *)
Abbreviation GlobalSettings := (gmap string value).

Definition equalObjects (a b : GlobalSettings) : bool :=
  Nat.eqb (size a) (size b)
  && forallb
       (λ kv : string * value,
          match b !! kv.1 with
          | Some w => isEqual_value kv.2 w
          | None => false
          end)
       (map_to_list a).

Definition isEqual (a b : GlobalSettings) : bool := equalObjects a b.

(** [o.key]: reading a property an object does not have gives
    [undefined]. *)
Definition prop (o : GlobalSettings) (key : string) : value :=
  default VUndefined (o !! key).

(** ** [indexOf]

    [String.prototype.indexOf]: the position of the first occurrence of the
    search string, or [-1].  Positions only matter through the comparison
    with [-1]. *)

Fixpoint String_indexOf_from (searchString s : string) (position : Z) : Z :=
  if String.prefix searchString s then position
  else
    match s with
    | EmptyString => -1
    | String _ rest => String_indexOf_from searchString rest (position + 1)
    end.

Definition String_indexOf (s searchString : string) : Z :=
  String_indexOf_from searchString s 0.

(** [Array.prototype.indexOf] compares with [===]; only a string element can
    be strictly equal to a search string. *)
Fixpoint Array_indexOf_from (searchElement : string) (l : list value) (position : Z) : Z :=
  match l with
  | [] => -1
  | x :: rest =>
      if match x with VStr s => String.eqb s searchElement | _ => false end
      then position
      else Array_indexOf_from searchElement rest (position + 1)
  end.

Definition Array_indexOf (l : list value) (searchElement : string) : Z :=
  Array_indexOf_from searchElement l 0.

(** What a method call can throw. *)
Inductive exception : Type := TypeError.

(** [receiver.indexOf(search)] on a value of type [any]: strings and arrays
    have the method; reading it from [null] or [undefined] throws, and on a
    number or a boolean the property is [undefined] and calling it throws. *)
Definition indexOf (receiver : value) (search : string) : exception + Z :=
  match receiver with
  | VStr s => inr (String_indexOf s search)
  | VArr l => inr (Array_indexOf l search)
  | VUndefined | VNull | VBool _ | VNum _ => inl TypeError
  end.

(** The substring relation the specification speaks of. *)
Definition contains (s sub : string) : Prop :=
  ∃ before after : string, s = String.append before (String.append sub after).

(** ** The collaborators *)

(** [HttpErrorResponse]: only [error], the body of the failed response, is
    read.  Its type is [any]: a text body is a string, an empty body is
    [null]. *)
Record HttpErrorResponse : Type := { error : value }.

(** [GlobalSettingsService]: the store behind the accessors, as the
    component sees it.  Every accessor is read once per use of
    [externalSettings_]. *)
Record GlobalSettingsService : Type := {
  getItemsPerPage : value;
  getLabelsLimit : value;
  getClusterName : value;
  getLogsAutoRefreshTimeInterval : value;
  getResourceAutoRefreshTimeInterval : value;
  getDisableAccessDeniedNotifications : value;
  getDefaultNamespace : value;
  getNamespaceFallbackList : value;
}.

(** [enum Controls]. *)
Inductive Controls : Type :=
| ClusterName
| ItemsPerPage
| LabelsLimit
| LogsAutorefreshInterval
| ResourceAutorefreshInterval
| DisableAccessDeniedNotification
| NamespaceSettings.

(** The value of the namespace control: the object with the two namespace
    fields built in [ngOnInit], or [null] ([None]) after a reset. *)
Definition NamespaceValue : Type := option (value * value).

Definition control_value (c : Controls) : Type :=
  match c with
  | NamespaceSettings => NamespaceValue
  | _ => value
  end.

(** [UntypedFormGroup] with the seven controls of [ngOnInit]. *)
Record UntypedFormGroup : Type := {
  clusterName : value;
  itemsPerPage : value;
  labelsLimit : value;
  logsAutorefreshInterval : value;
  resourceAutorefreshInterval : value;
  disableAccessDeniedNotification : value;
  namespaceSettings : NamespaceValue;
}.

(** [form.get(c).value] *)
Definition get (c : Controls) (f : UntypedFormGroup) : control_value c :=
  match c with
  | ClusterName => clusterName f
  | ItemsPerPage => itemsPerPage f
  | LabelsLimit => labelsLimit f
  | LogsAutorefreshInterval => logsAutorefreshInterval f
  | ResourceAutorefreshInterval => resourceAutorefreshInterval f
  | DisableAccessDeniedNotification => disableAccessDeniedNotification f
  | NamespaceSettings => namespaceSettings f
  end.

(** The store of a control's value, without the events. *)
Definition set_control (c : Controls) : control_value c → UntypedFormGroup → UntypedFormGroup :=
  match c with
  | ClusterName => λ v f,
      {| clusterName := v; itemsPerPage := itemsPerPage f; labelsLimit := labelsLimit f;
         logsAutorefreshInterval := logsAutorefreshInterval f;
         resourceAutorefreshInterval := resourceAutorefreshInterval f;
         disableAccessDeniedNotification := disableAccessDeniedNotification f;
         namespaceSettings := namespaceSettings f |}
  | ItemsPerPage => λ v f,
      {| clusterName := clusterName f; itemsPerPage := v; labelsLimit := labelsLimit f;
         logsAutorefreshInterval := logsAutorefreshInterval f;
         resourceAutorefreshInterval := resourceAutorefreshInterval f;
         disableAccessDeniedNotification := disableAccessDeniedNotification f;
         namespaceSettings := namespaceSettings f |}
  | LabelsLimit => λ v f,
      {| clusterName := clusterName f; itemsPerPage := itemsPerPage f; labelsLimit := v;
         logsAutorefreshInterval := logsAutorefreshInterval f;
         resourceAutorefreshInterval := resourceAutorefreshInterval f;
         disableAccessDeniedNotification := disableAccessDeniedNotification f;
         namespaceSettings := namespaceSettings f |}
  | LogsAutorefreshInterval => λ v f,
      {| clusterName := clusterName f; itemsPerPage := itemsPerPage f;
         labelsLimit := labelsLimit f; logsAutorefreshInterval := v;
         resourceAutorefreshInterval := resourceAutorefreshInterval f;
         disableAccessDeniedNotification := disableAccessDeniedNotification f;
         namespaceSettings := namespaceSettings f |}
  | ResourceAutorefreshInterval => λ v f,
      {| clusterName := clusterName f; itemsPerPage := itemsPerPage f;
         labelsLimit := labelsLimit f;
         logsAutorefreshInterval := logsAutorefreshInterval f;
         resourceAutorefreshInterval := v;
         disableAccessDeniedNotification := disableAccessDeniedNotification f;
         namespaceSettings := namespaceSettings f |}
  | DisableAccessDeniedNotification => λ v f,
      {| clusterName := clusterName f; itemsPerPage := itemsPerPage f;
         labelsLimit := labelsLimit f;
         logsAutorefreshInterval := logsAutorefreshInterval f;
         resourceAutorefreshInterval := resourceAutorefreshInterval f;
         disableAccessDeniedNotification := v;
         namespaceSettings := namespaceSettings f |}
  | NamespaceSettings => λ v f,
      {| clusterName := clusterName f; itemsPerPage := itemsPerPage f;
         labelsLimit := labelsLimit f;
         logsAutorefreshInterval := logsAutorefreshInterval f;
         resourceAutorefreshInterval := resourceAutorefreshInterval f;
         disableAccessDeniedNotification := disableAccessDeniedNotification f;
         namespaceSettings := v |}
  end.

(** The controls after [form.reset()]: the builder's controls are nullable,
    so each one falls back to [null]. *)
Definition reset_controls : UntypedFormGroup :=
  {| clusterName := VNull; itemsPerPage := VNull; labelsLimit := VNull;
     logsAutorefreshInterval := VNull; resourceAutorefreshInterval := VNull;
     disableAccessDeniedNotification := VNull; namespaceSettings := None |}.

(** The calls the component makes on its collaborators, in the order it
    makes them. *)
Inductive Call : Type :=
| CanI                                  (* settingsService_.canI() subscribed *)
| Load                                  (* settingsService_.load(onLoad_, onLoadError_) *)
| Save (edited : GlobalSettings)        (* settingsService_.save(settings) subscribed *)
| OnSettingsUpdateNext                  (* settingsService_.onSettingsUpdate.next() *)
| TitleUpdate                           (* title_.update() *)
| DialogOpen                            (* dialog_.open(SaveAnywayDialogComponent) *)
| FormReset                             (* form.reset() *)
| ValueChanges                          (* form.valueChanges emits: onFormChange_ runs *)
| HelperSettings (s : GlobalSettings)   (* settingsHelperService_.settings = s *)
| HelperReset                           (* settingsHelperService_.reset() *)
| UnhandledError (e : exception).       (* an error reaches a subscriber without error handler *)

(** [SettingsHelperService] is injected and its class is not part of the
    component.  The component assigns its [settings], calls [reset()] and
    listens on [onSettingsChange]; what the helper stores and what it emits
    is the helper's own business, so it is an interface here: each
    operation gives the helper's next state and the settings it emits on
    [onSettingsChange], oldest first. *)
Class SettingsHelperService : Type := {
  helper_state : Type;
  helper_new : helper_state;
  helper_set_settings : GlobalSettings → helper_state → helper_state * list GlobalSettings;
  helper_reset : helper_state → helper_state * list GlobalSettings;
}.

(** Modelled from the spec: the class SettingsHelperService (./service) is
    missing from the sources.  The specification calls it "a live helper
    state object" into which the form "mirrors" the edited values "on every
    change" (section 2), "a change-broadcast helper" (section 6), and has
    [reload] clear the "helper state" (section 4.1).  So: assigning
    [settings] stores the assigned object and broadcasts it, and [reset]
    empties the stored object. *)
Definition mirror_helper : SettingsHelperService :=
  {| helper_state := GlobalSettings;
     helper_new := ∅;
     helper_set_settings := λ s _, (s, [s]);
     helper_reset := λ _, (∅, []) |}.

(** ** The component *)

Section component.
Context {helper : SettingsHelperService}.

(** The fields of [GlobalSettingsComponent], the state of the two stateful
    collaborators it reads back (the store of the settings service and the
    helper), and the log of its calls. *)
Record GlobalSettingsComponent : Type := {
  settings : GlobalSettings;
  hasLoadError : bool;
  form : UntypedFormGroup;
  settingsService_ : GlobalSettingsService;
  settingsHelperService_ : helper_state;
  calls : list Call;
}.

Definition with_settings (s : GlobalSettings) (c : GlobalSettingsComponent) :=
  {| settings := s; hasLoadError := hasLoadError c; form := form c;
     settingsService_ := settingsService_ c;
     settingsHelperService_ := settingsHelperService_ c; calls := calls c |}.

Definition with_hasLoadError (b : bool) (c : GlobalSettingsComponent) :=
  {| settings := settings c; hasLoadError := b; form := form c;
     settingsService_ := settingsService_ c;
     settingsHelperService_ := settingsHelperService_ c; calls := calls c |}.

Definition with_form (f : UntypedFormGroup) (c : GlobalSettingsComponent) :=
  {| settings := settings c; hasLoadError := hasLoadError c; form := f;
     settingsService_ := settingsService_ c;
     settingsHelperService_ := settingsHelperService_ c; calls := calls c |}.

Definition with_settingsService (svc : GlobalSettingsService) (c : GlobalSettingsComponent) :=
  {| settings := settings c; hasLoadError := hasLoadError c; form := form c;
     settingsService_ := svc;
     settingsHelperService_ := settingsHelperService_ c; calls := calls c |}.

Definition with_helper (h : helper_state) (c : GlobalSettingsComponent) :=
  {| settings := settings c; hasLoadError := hasLoadError c; form := form c;
     settingsService_ := settingsService_ c;
     settingsHelperService_ := h; calls := calls c |}.

Definition call (k : Call) (c : GlobalSettingsComponent) :=
  {| settings := settings c; hasLoadError := hasLoadError c; form := form c;
     settingsService_ := settingsService_ c;
     settingsHelperService_ := settingsHelperService_ c;
     calls := calls c ++ [k] |}.

(** [concurrentChangeErr_] *)
Definition concurrentChangeErr_ : string := "settings changed since last reload".

(** [get externalSettings_()]: an object with eight own keys, whatever the
    accessors return. *)
Definition externalSettings_ (c : GlobalSettingsComponent) : GlobalSettings :=
  let svc := settingsService_ c in
  list_to_map
    [ ("itemsPerPage", getItemsPerPage svc);
      ("labelsLimit", getLabelsLimit svc);
      ("clusterName", getClusterName svc);
      ("logsAutoRefreshTimeInterval", getLogsAutoRefreshTimeInterval svc);
      ("resourceAutoRefreshTimeInterval", getResourceAutoRefreshTimeInterval svc);
      ("disableAccessDeniedNotifications", getDisableAccessDeniedNotifications svc);
      ("defaultNamespace", getDefaultNamespace svc);
      ("namespaceFallbackList", getNamespaceFallbackList svc) ].

(** The subscriber of [settingsHelperService_.onSettingsChange] installed
    by [ngOnInit]: [s => (this.settings = s)], once per emitted value. *)
Definition onSettingsChange (emitted : list GlobalSettings) (c : GlobalSettingsComponent) :=
  fold_left (λ c s, with_settings s c) emitted c.

(** [this.settingsHelperService_.settings = s] *)
Definition assign_helper_settings (s : GlobalSettings) (c : GlobalSettingsComponent) :=
  let c := call (HelperSettings s) c in
  let '(h, emitted) := helper_set_settings s (settingsHelperService_ c) in
  onSettingsChange emitted (with_helper h c).

(** [this.settingsHelperService_.reset()] *)
Definition reset_helper (c : GlobalSettingsComponent) :=
  let c := call HelperReset c in
  let '(h, emitted) := helper_reset (settingsHelperService_ c) in
  onSettingsChange emitted (with_helper h c).

(** The object literal of [onFormChange_]: six own keys. *)
Definition form_settings (f : UntypedFormGroup) : GlobalSettings :=
  list_to_map
    [ ("itemsPerPage", get ItemsPerPage f);
      ("clusterName", get ClusterName f);
      ("disableAccessDeniedNotifications", get DisableAccessDeniedNotification f);
      ("labelsLimit", get LabelsLimit f);
      ("logsAutoRefreshTimeInterval", get LogsAutorefreshInterval f);
      ("resourceAutoRefreshTimeInterval", get ResourceAutorefreshInterval f) ].

(** [onFormChange_] *)
Definition onFormChange_ (c : GlobalSettingsComponent) :=
  assign_helper_settings (form_settings (form c)) c.

(** [form.valueChanges] emits; [ngOnInit] subscribed [onFormChange_]. *)
Definition valueChanges (c : GlobalSettingsComponent) :=
  onFormChange_ (call ValueChanges c).

(** [form.get(ctrl).setValue(v, {emitEvent})]: the value is stored, and
    the form emits on [valueChanges] unless [emitEvent] is [false]. *)
Definition setValue (ctrl : Controls) (v : control_value ctrl) (emitEvent : bool)
    (c : GlobalSettingsComponent) :=
  let c := with_form (set_control ctrl v (form c)) c in
  if emitEvent then valueChanges c else c.

(** [form.reset()]: called without options, so the group emits once. *)
Definition form_reset (c : GlobalSettingsComponent) :=
  valueChanges (with_form reset_controls (call FormReset c)).

(** [load_]: both requests are issued; their answers come later. *)
Definition load_ (c : GlobalSettingsComponent) :=
  call Load (call CanI c).

(** The subscriber of [canI()]: [canI => (this.hasLoadError = !canI)]. *)
Definition canI_next (canI : bool) (c : GlobalSettingsComponent) :=
  with_hasLoadError (negb canI) c.

(** [onLoad_] *)
Definition onLoad_ (c : GlobalSettingsComponent) :=
  let c := with_settings (externalSettings_ c) c in
  let c := assign_helper_settings (settings c) c in
  let c := setValue ItemsPerPage (prop (settings c) "itemsPerPage") false c in
  let c := setValue LabelsLimit (prop (settings c) "labelsLimit") false c in
  let c := setValue ClusterName (prop (settings c) "clusterName") false c in
  let c := setValue LogsAutorefreshInterval
             (prop (settings c) "logsAutoRefreshTimeInterval") false c in
  let c := setValue ResourceAutorefreshInterval
             (prop (settings c) "resourceAutoRefreshTimeInterval") false c in
  setValue DisableAccessDeniedNotification
    (prop (settings c) "disableAccessDeniedNotifications") false c.

(** [onLoadError_] *)
Definition onLoadError_ (c : GlobalSettingsComponent) :=
  with_hasLoadError true c.

(** [reload] *)
Definition reload (c : GlobalSettingsComponent) :=
  load_ (reset_helper (form_reset c)).

(** [canSave] *)
Definition canSave (c : GlobalSettingsComponent) : bool :=
  negb (isEqual (settings c) (externalSettings_ c)) && negb (hasLoadError c).

(** [save]: the request is issued with the settings of that moment; the
    rest of the pipeline runs when the request is answered ([save_next],
    [save_error]). *)
Definition save (c : GlobalSettingsComponent) :=
  call (Save (settings c)) c.

(** What reaches [onSave_]: the saved settings, or the boolean of the
    error path (whatever the dialog closed with). *)
Inductive SaveResult : Type :=
| Saved (s : GlobalSettings)
| Answer (v : value).

Definition is_true (result : SaveResult) : bool :=
  match result with
  | Answer (VBool true) => true
  | _ => false
  end.

(** [onSave_] *)
Definition onSave_ (result : SaveResult) (c : GlobalSettingsComponent) :=
  reload (if is_true result then save c else c).

(** What [onSaveError_] returns: the dialog's [afterClosed()] or
    [of(false)]. *)
Inductive ObservableBoolean : Type :=
| AfterClosed
| Of (b : bool).

(** [onSaveError_]: [err] may be absent ([None]); [err.error.indexOf] may
    throw. *)
Definition onSaveError_ (err : option HttpErrorResponse) (c : GlobalSettingsComponent)
    : exception + ObservableBoolean * GlobalSettingsComponent :=
  match err with
  | None => inr (Of false, c)
  | Some e =>
      match indexOf (error e) concurrentChangeErr_ with
      | inl thrown => inl thrown
      | inr i =>
          if negb (i =? -1) then inr (AfterClosed, call DialogOpen c)
          else inr (Of false, c)
      end
  end.

(** The [tap] of [save] followed by its subscriber: the save request
    emitted the saved settings. *)
Definition save_next (saved : GlobalSettings) (c : GlobalSettingsComponent) :=
  let c := load_ c in
  let c := call TitleUpdate c in
  let c := call OnSettingsUpdateNext c in
  onSave_ (Saved saved) c.

(** The [catchError] of [save]: the save request failed.  [of(false)]
    emits at once; the dialog emits when it is closed ([dialog_closed]);
    an error thrown by the handler goes to the subscriber, which has no
    error handler, and [onSave_] is not called. *)
Definition save_error (err : option HttpErrorResponse) (c : GlobalSettingsComponent) :=
  match onSaveError_ err c with
  | inl thrown => call (UnhandledError thrown) c
  | inr (Of b, c) => onSave_ (Answer (VBool b)) c
  | inr (AfterClosed, c) => c
  end.

(** The conflict dialog closes with [v]. *)
Definition dialog_closed (v : value) (c : GlobalSettingsComponent) :=
  onSave_ (Answer v) c.

(** The form built by [ngOnInit]. *)
Definition builder_group (svc : GlobalSettingsService) : UntypedFormGroup :=
  {| clusterName := VStr ""; itemsPerPage := VNum 0; labelsLimit := VNum 0;
     logsAutorefreshInterval := VNum 0; resourceAutorefreshInterval := VNum 0;
     disableAccessDeniedNotification := VBool false;
     namespaceSettings := Some (getDefaultNamespace svc, getNamespaceFallbackList svc) |}.

(** [ngOnInit] on a fresh component, with the injected settings service. *)
Definition ngOnInit (svc : GlobalSettingsService) : GlobalSettingsComponent :=
  load_
    {| settings := ∅; hasLoadError := false; form := builder_group svc;
       settingsService_ := svc; settingsHelperService_ := helper_new; calls := [] |}.

(** ** The event loop *)

(** What happens to an initialised component: the user edits a control or
    presses a button, or a collaborator answers. *)
Inductive Event : Type :=
| Edit (ctrl : Controls) (v : control_value ctrl)
| ClickReload
| ClickSave
| CanIAnswered (canI : bool)
| Loaded (stored : GlobalSettingsService)
| LoadFailed
| SaveSucceeded (saved : GlobalSettings)
| SaveFailed (err : option HttpErrorResponse)
| DialogClosed (v : value).

(** Modelled from the spec: the class GlobalSettingsService
    (@common/services/global/globalsettings) and the dialog are missing from
    the sources.  Section 6 gives the service [load(onSuccess, onError)],
    [save(settings) -> async<result>] and [canI() -> async<bool>], and
    section 5 has the HTTP load and save and the dialog as "suspending
    subscriptions that resume on a single UI thread".  So every answer is an
    event of its own, handled after the method that asked has returned; a
    successful load leaves the loaded settings behind the accessors and
    calls the success callback, a failed one calls the error callback. *)
Definition handle (c : GlobalSettingsComponent) (e : Event) : GlobalSettingsComponent :=
  match e with
  | Edit ctrl v => setValue ctrl v true c
  | ClickReload => reload c
  | ClickSave => save c
  | CanIAnswered canI => canI_next canI c
  | Loaded stored => onLoad_ (with_settingsService stored c)
  | LoadFailed => onLoadError_ c
  | SaveSucceeded saved => save_next saved c
  | SaveFailed err => save_error err c
  | DialogClosed v => dialog_closed v c
  end.

Definition run (events : list Event) (c : GlobalSettingsComponent) :=
  fold_left handle events c.

(** The calls made between two states of one run. *)
Definition calls_since (before after : GlobalSettingsComponent) : list Call :=
  drop (length (calls before)) (calls after).

End component.

(** ** Reading the log *)

(** The calls of one [reload], in order. *)
Definition reload_calls : list Call :=
  [FormReset; ValueChanges; HelperSettings (form_settings reset_controls);
   HelperReset; CanI; Load].

Definition is_Save (k : Call) : bool :=
  match k with Save _ => true | _ => false end.

Definition is_Load (k : Call) : bool :=
  match k with Load => true | _ => false end.

Definition is_TitleUpdate (k : Call) : bool :=
  match k with TitleUpdate => true | _ => false end.

Definition is_OnSettingsUpdateNext (k : Call) : bool :=
  match k with OnSettingsUpdateNext => true | _ => false end.

(** How many save requests a stretch of the log holds. *)
Definition count_saves (l : list Call) : nat := length (filter is_Save l).

(** The calls made before the next load request, and the calls made after
    it. *)
Fixpoint before_next_load (l : list Call) : list Call :=
  match l with
  | [] => []
  | k :: rest => if is_Load k then [] else k :: before_next_load rest
  end.

Fixpoint after_next_load (l : list Call) : list Call :=
  match l with
  | [] => []
  | k :: rest => if is_Load k then rest else after_next_load rest
  end.

(** Both hooks of a successful save fire before the next load request. *)
Definition hooks_before_next_load (l : list Call) : bool :=
  existsb is_TitleUpdate (before_next_load l)
  && existsb is_OnSettingsUpdateNext (before_next_load l).

(** ** Six keys against eight *)

Definition form_keys : gset string :=
  {[ "itemsPerPage"; "clusterName"; "disableAccessDeniedNotifications"; "labelsLimit";
     "logsAutoRefreshTimeInterval"; "resourceAutoRefreshTimeInterval" ]}.

Definition namespace_keys : gset string :=
  {[ "defaultNamespace"; "namespaceFallbackList" ]}.

(** ** Sample states

    A service with stored settings, the component that has loaded them, and
    the component after the user has raised the page size. *)

Definition stored_settings : GlobalSettingsService :=
  {| getItemsPerPage := VNum 10; getLabelsLimit := VNum 3; getClusterName := VStr "";
     getLogsAutoRefreshTimeInterval := VNum 5;
     getResourceAutoRefreshTimeInterval := VNum 5;
     getDisableAccessDeniedNotifications := VBool false;
     getDefaultNamespace := VStr "default";
     getNamespaceFallbackList := VArr [VStr "default"] |}.

Definition loaded : @GlobalSettingsComponent mirror_helper :=
  run [Loaded stored_settings; CanIAnswered true] (ngOnInit stored_settings).

Definition edited : @GlobalSettingsComponent mirror_helper :=
  handle loaded (Edit ItemsPerPage (VNum 25)).

Definition denied : @GlobalSettingsComponent mirror_helper :=
  handle edited (CanIAnswered false).

(** A failed response with an empty body: [err.error === null]. *)
Definition empty_body_error : HttpErrorResponse := {| error := VNull |}.

(** ** A helper that merges

    The interface admits a helper that lays an assignment over what it
    holds ([{...held, ...assigned}]) and broadcasts the merged object, as a
    settings object shared by several forms would be kept.  The component
    that has loaded the stored settings with it, and the same component
    after the user has raised the page size and set it back. *)





(** ** More readings of the log, and the rounds of a conflict *)

(** How many load requests a stretch of the log holds. *)
Definition count_loads (l : list Call) : nat := length (filter is_Load l).

(** The values that have an [indexOf] method. *)
Definition has_indexOf (v : value) : bool :=
  match v with
  | VStr _ | VArr _ => true
  | VUndefined | VNull | VBool _ | VNum _ => false
  end.

(** A failed response with a text body. *)
Definition text_error (body : string) : HttpErrorResponse := {| error := VStr body |}.

(** One round of a conflict: the pending save request fails with [err], and
    the user confirms the dialog that [onSaveError_] opened. *)
Definition conflict_round `{helper : SettingsHelperService}
    (err : option HttpErrorResponse) (c : GlobalSettingsComponent) : GlobalSettingsComponent :=
  dialog_closed (VBool true) (save_error err c).

(** The body the backend sends on a concurrent change, inside a longer
    message. *)
Definition conflict_body : string := "Conflict: settings changed since last reload.".

(** * Proofs *)

(** ** Deep equality *)

Lemma isEqual_value_spec (a b : value) : isEqual_value a b = true ↔ a = b.
Proof.
  revert b. induction a as [| | x | x | x | xs IH] using value_deep_ind;
    intros [| | y | y | y | ys]; simpl; try (split; [discriminate | congruence]);
    try tauto.
  - rewrite Bool.eqb_true_iff. split; congruence.
  - rewrite Z.eqb_eq. split; congruence.
  - rewrite String.eqb_eq. split; congruence.
  - revert ys. induction IH as [| x xs Hx _ IHxs]; intros [| y ys];
      try (split; [discriminate | congruence]); try tauto.
    rewrite andb_true_iff, Hx, IHxs. split.
    + intros [-> Heq]. congruence.
    + intros Heq. split; congruence.
Qed.

Lemma isEqual_value_refl (a : value) : isEqual_value a a = true.
Proof. by apply isEqual_value_spec. Qed.

(** Deep equality of two settings objects is equality of the objects. *)
Lemma isEqual_spec (a b : GlobalSettings) : isEqual a b = true ↔ a = b.
Proof.
  unfold isEqual, equalObjects.
  rewrite andb_true_iff, Nat.eqb_eq, forallb_forall. split.
  - intros [Hsize Hall]. apply map_subseteq_size_eq; [| lia].
    apply map_subseteq_spec. intros k v Hk.
    specialize (Hall (k, v)). simpl in Hall.
    destruct (b !! k) as [w|] eqn:Hb.
    + f_equal. symmetry. apply isEqual_value_spec, Hall.
      apply list_elem_of_In, elem_of_map_to_list, Hk.
    + exfalso. enough (false = true) by discriminate. apply Hall.
      apply list_elem_of_In, elem_of_map_to_list, Hk.
  - intros <-. split; [done |]. intros [k v] Hin. simpl.
    apply list_elem_of_In, elem_of_map_to_list in Hin. rewrite Hin.
    apply isEqual_value_refl.
Qed.

Lemma isEqual_false (a b : GlobalSettings) : isEqual a b = false ↔ a ≠ b.
Proof.
  rewrite <- isEqual_spec. destruct (isEqual a b); split; congruence.
Qed.

Lemma isEqual_refl (a : GlobalSettings) : isEqual a a = true.
Proof. by apply isEqual_spec. Qed.

(** ** Substring search *)

Lemma append_cons (c : ascii) (s t : string) :
  String.append (String c s) t = String c (String.append s t).
Proof. reflexivity. Qed.

Lemma append_nil (t : string) : String.append "" t = t.
Proof. reflexivity. Qed.

Lemma prefix_append (p s : string) :
  String.prefix p s = true ↔ ∃ t, s = String.append p t.
Proof.
  revert s. induction p as [| a p IH]; intros s; simpl.
  - destruct s; simpl; split; eauto.
  - destruct s as [| b s]; simpl.
    + split; [discriminate | intros [t Ht]; discriminate].
    + destruct (ascii_dec a b) as [-> | Hne].
      * rewrite IH. split; intros [t Ht]; exists t.
        -- rewrite append_cons. congruence.
        -- rewrite append_cons in Ht. congruence.
      * split; [discriminate |]. intros [t Ht].
        rewrite append_cons in Ht. congruence.
Qed.

Lemma prefix_contains (sub s : string) :
  String.prefix sub s = true → contains s sub.
Proof. intros [t Ht]%prefix_append. by exists "", t. Qed.

Lemma contains_here (sub s after : string) :
  s = String.append "" (String.append sub after) → String.prefix sub s = true.
Proof. rewrite append_nil. intros ->. apply prefix_append. eauto. Qed.

Lemma String_indexOf_from_unfold (sub s : string) (p : Z) :
  String_indexOf_from sub s p =
    if String.prefix sub s then p
    else
      match s with
      | EmptyString => -1
      | String _ rest => String_indexOf_from sub rest (p + 1)
      end.
Proof. by destruct s. Qed.

Lemma String_indexOf_from_found (sub s : string) (p : Z) :
  0 ≤ p → String_indexOf_from sub s p ≠ -1 ↔ contains s sub.
Proof.
  revert p. induction s as [| c s IH]; intros p Hp;
    rewrite String_indexOf_from_unfold.
  - destruct (String.prefix sub "") eqn:Hpre.
    + split; [| intros _; lia]. intros _. by apply prefix_contains.
    + split; [done |]. intros [[| b before] [after Heq]].
      * apply contains_here in Heq. congruence.
      * rewrite append_cons in Heq. discriminate.
  - destruct (String.prefix sub (String c s)) eqn:Hpre.
    + split; [| intros _; lia]. intros _. by apply prefix_contains.
    + rewrite (IH (p + 1)) by lia. split.
      * intros (before & after & ->). by exists (String c before), after.
      * intros [[| b before] [after Heq]].
        -- apply contains_here in Heq. congruence.
        -- rewrite append_cons in Heq. injection Heq as -> ->.
           by exists before, after.
Qed.

Lemma String_indexOf_found (s sub : string) :
  String_indexOf s sub ≠ -1 ↔ contains s sub.
Proof. by apply String_indexOf_from_found. Qed.

(** ** What each method leaves untouched, and what it logs *)

Section frames.
Context {helper : SettingsHelperService}.
Implicit Types c : GlobalSettingsComponent.

Lemma calls_since_app c c' (l : list Call) :
  calls c' = calls c ++ l → calls_since c c' = l.
Proof. intros H. unfold calls_since. rewrite H. apply drop_app_length. Qed.

Lemma onSettingsChange_frame (emitted : list GlobalSettings) c :
  let c' := onSettingsChange emitted c in
  hasLoadError c' = hasLoadError c ∧ form c' = form c
  ∧ settingsService_ c' = settingsService_ c
  ∧ settingsHelperService_ c' = settingsHelperService_ c
  ∧ calls c' = calls c.
Proof.
  revert c. induction emitted as [| s emitted IH]; intros c; simpl; [done |].
  apply (IH (with_settings s c)).
Qed.

Lemma assign_helper_settings_frame (s : GlobalSettings) c :
  let c' := assign_helper_settings s c in
  hasLoadError c' = hasLoadError c ∧ form c' = form c
  ∧ settingsService_ c' = settingsService_ c
  ∧ settingsHelperService_ c' = (helper_set_settings s (settingsHelperService_ c)).1
  ∧ calls c' = calls c ++ [HelperSettings s].
Proof.
  unfold assign_helper_settings. simpl.
  destruct (helper_set_settings s (settingsHelperService_ c)) as [h emitted].
  apply (onSettingsChange_frame emitted (with_helper h (call (HelperSettings s) c))).
Qed.

Lemma reset_helper_frame c :
  let c' := reset_helper c in
  hasLoadError c' = hasLoadError c ∧ form c' = form c
  ∧ settingsService_ c' = settingsService_ c
  ∧ calls c' = calls c ++ [HelperReset].
Proof.
  unfold reset_helper. simpl.
  destruct (helper_reset (settingsHelperService_ c)) as [h emitted].
  destruct (onSettingsChange_frame emitted (with_helper h (call HelperReset c)))
    as (? & ? & ? & _ & ?).
  done.
Qed.

Lemma valueChanges_frame c :
  let c' := valueChanges c in
  hasLoadError c' = hasLoadError c ∧ form c' = form c
  ∧ settingsService_ c' = settingsService_ c
  ∧ calls c' = calls c ++ [ValueChanges; HelperSettings (form_settings (form c))].
Proof.
  unfold valueChanges, onFormChange_.
  destruct (assign_helper_settings_frame
              (form_settings (form (call ValueChanges c))) (call ValueChanges c))
    as (-> & -> & -> & _ & ->).
  simpl. by rewrite <- app_assoc.
Qed.

Lemma form_reset_frame c :
  let c' := form_reset c in
  hasLoadError c' = hasLoadError c ∧ form c' = reset_controls
  ∧ settingsService_ c' = settingsService_ c
  ∧ calls c' =
      calls c ++ [FormReset; ValueChanges; HelperSettings (form_settings reset_controls)].
Proof.
  unfold form_reset.
  destruct (valueChanges_frame (with_form reset_controls (call FormReset c)))
    as (-> & -> & -> & ->).
  simpl. by rewrite <- app_assoc.
Qed.

Lemma reload_frame c :
  let c' := reload c in
  hasLoadError c' = hasLoadError c ∧ form c' = reset_controls
  ∧ settingsService_ c' = settingsService_ c
  ∧ calls c' = calls c ++ reload_calls.
Proof.
  unfold reload, load_. simpl.
  destruct (reset_helper_frame (form_reset c)) as (-> & -> & -> & ->).
  destruct (form_reset_frame c) as (-> & -> & -> & ->).
  by rewrite <- !app_assoc.
Qed.

Lemma calls_since_reload c : calls_since c (reload c) = reload_calls.
Proof. apply calls_since_app, reload_frame. Qed.

(** A [setValue] with [emitEvent: false] only stores the value. *)
Lemma setValue_silent (ctrl : Controls) (v : control_value ctrl) c :
  setValue ctrl v false c = with_form (set_control ctrl v (form c)) c.
Proof. reflexivity. Qed.

(** A [setValue] that emits runs [onFormChange_]. *)
Lemma setValue_emitting (ctrl : Controls) (v : control_value ctrl) c :
  calls_since c (setValue ctrl v true c) =
    [ValueChanges; HelperSettings (form_settings (set_control ctrl v (form c)))].
Proof.
  apply calls_since_app. unfold setValue.
  by destruct (valueChanges_frame (with_form (set_control ctrl v (form c)) c))
    as (_ & _ & _ & ->).
Qed.

(** [onSave_] always ends in a [reload]. *)
Lemma onSave__reloads (result : SaveResult) c :
  onSave_ result c = reload (if is_true result then save c else c).
Proof. reflexivity. Qed.

Lemma calls_since_onSave_ (result : SaveResult) c :
  calls_since c (onSave_ result c) =
    (if is_true result then [Save (settings c)] else []) ++ reload_calls.
Proof.
  apply calls_since_app. unfold onSave_.
  destruct (is_true result).
  - destruct (reload_frame (save c)) as (_ & _ & _ & ->).
    simpl. by rewrite <- app_assoc.
  - by destruct (reload_frame c) as (_ & _ & _ & ->).
Qed.

End frames.

(** ** Six keys against eight: the lemmas *)

Lemma dom_form_settings (f : UntypedFormGroup) : dom (form_settings f) = form_keys.
Proof.
  unfold form_settings, form_keys. simpl.
  rewrite !dom_insert_L, dom_empty_L. set_solver.
Qed.

Lemma dom_externalSettings_ `{helper : SettingsHelperService} (c : GlobalSettingsComponent) :
  dom (externalSettings_ c) = form_keys ∪ namespace_keys.
Proof.
  unfold externalSettings_, form_keys, namespace_keys. simpl.
  rewrite !dom_insert_L, dom_empty_L. set_solver.
Qed.

Lemma form_settings_never_external `{helper : SettingsHelperService}
    (f : UntypedFormGroup) (c : GlobalSettingsComponent) :
  isEqual (form_settings f) (externalSettings_ c) = false.
Proof.
  apply isEqual_false. intros Heq.
  assert ("defaultNamespace" ∈ dom (form_settings f)) as Hin.
  { rewrite Heq, dom_externalSettings_. unfold namespace_keys. set_solver. }
  rewrite dom_form_settings in Hin. unfold form_keys in Hin.
  rewrite !elem_of_union, !elem_of_singleton in Hin. intuition discriminate.
Qed.

(** ** The model at work *)

Example isEqual_counts_undefined_keys :
  isEqual {[ "clusterName" := VUndefined ]} ∅ = false.
Proof. reflexivity. Qed.

Example indexOf_finds_marker :
  indexOf (VStr "update failed: settings changed since last reload") concurrentChangeErr_
  = inr 15.
Proof. reflexivity. Qed.

Example indexOf_of_null_throws : indexOf VNull concurrentChangeErr_ = inl TypeError.
Proof. reflexivity. Qed.

Example canSave_loaded : canSave loaded = false.
Proof. vm_compute. reflexivity. Qed.

Example canSave_edited : canSave edited = true.
Proof. vm_compute. reflexivity. Qed.

Example canSave_denied : canSave denied = false.
Proof. vm_compute. reflexivity. Qed.

Example conflict_opens_dialog :
  calls_since edited
    (save_error (Some {| error := VStr "settings changed since last reload" |}) edited)
  = [DialogOpen].
Proof. vm_compute. reflexivity. Qed.

Example generic_error_reloads :
  calls_since edited (save_error (Some {| error := VStr "boom" |}) edited) = reload_calls.
Proof. vm_compute. reflexivity. Qed.

Example successful_save_calls :
  calls_since edited (run [ClickSave; SaveSucceeded (settings edited)] edited)
  = [Save (settings edited); CanI; Load; TitleUpdate; OnSettingsUpdateNext] ++ reload_calls.
Proof. vm_compute. reflexivity. Qed.

(** ** The properties of the specification *)

Section claims.
Context {helper : SettingsHelperService}.
Implicit Types c : GlobalSettingsComponent.

(** C1. [canSave] returns true if and only if the component's [settings]
    differ under deep equality from the settings rebuilt from the settings
    service and the load-error flag is false; in every other case it returns
    false.  Deep difference is stated twice: as [isEqual] answering [false],
    and as the two objects being different. *)
Theorem canSave_iff c :
  (canSave c = true ↔
     isEqual (settings c) (externalSettings_ c) = false ∧ hasLoadError c = false)
  ∧ (canSave c = true ↔ settings c ≠ externalSettings_ c ∧ hasLoadError c = false)
  ∧ (canSave c = false ↔ settings c = externalSettings_ c ∨ hasLoadError c = true).
Proof.
  unfold canSave. rewrite <- isEqual_false, <- isEqual_spec.
  destruct (isEqual (settings c) (externalSettings_ c)), (hasLoadError c); simpl;
    intuition congruence.
Qed.

(** C3. When the conflict dialog is confirmed (it closes with [true]), save
    is invoked again exactly once and then reload; when it is declined, or
    the error was a generic one ([of(false)]), the result is [false]: save
    is not invoked again and only reload is. *)
Theorem onSave__retries_once_when_confirmed c :
  (dialog_closed (VBool true) c = reload (save c)
   ∧ calls_since c (dialog_closed (VBool true) c) = Save (settings c) :: reload_calls
   ∧ count_saves (calls_since c (dialog_closed (VBool true) c)) = 1%nat)
  ∧ (dialog_closed (VBool false) c = reload c
     ∧ onSave_ (Answer (VBool false)) c = reload c
     ∧ calls_since c (onSave_ (Answer (VBool false)) c) = reload_calls
     ∧ count_saves (calls_since c (onSave_ (Answer (VBool false)) c)) = 0%nat).
Proof.
  unfold dialog_closed.
  rewrite !calls_since_onSave_, !onSave__reloads. simpl. done.
Qed.

(** C7. A failed load and a denied permission each set [hasLoadError], and
    whenever [hasLoadError] is set [canSave] returns false, whether or not
    the settings differ. *)
Theorem load_error_blocks_save c :
  (hasLoadError (onLoadError_ c) = true ∧ canSave (onLoadError_ c) = false)
  ∧ (hasLoadError (canI_next false c) = true ∧ canSave (canI_next false c) = false)
  ∧ (hasLoadError c = true → canSave c = false).
Proof.
  unfold canSave. simpl. rewrite !andb_false_r. repeat split.
  intros ->. apply andb_false_r.
Qed.

(** C8. On a successful load the form is filled without a change
    notification: every [setValue] of [onLoad_] only stores its value, so
    the only call [onLoad_] makes is the assignment of the loaded settings to
    the helper; [valueChanges] does not emit, [onFormChange_] does not run,
    and the helper keeps the state that assignment gave it. *)
Theorem onLoad__does_not_notify c :
  (∀ (ctrl : Controls) (v : control_value ctrl) c',
      calls (setValue ctrl v false c') = calls c'
      ∧ settingsHelperService_ (setValue ctrl v false c') = settingsHelperService_ c'
      ∧ settings (setValue ctrl v false c') = settings c')
  ∧ calls_since c (onLoad_ c) = [HelperSettings (externalSettings_ c)]
  ∧ (ValueChanges ∉ calls_since c (onLoad_ c))
  ∧ settingsHelperService_ (onLoad_ c) =
      (helper_set_settings (externalSettings_ c) (settingsHelperService_ c)).1
  ∧ form (onLoad_ c) =
      {| clusterName := prop (settings (onLoad_ c)) "clusterName";
         itemsPerPage := prop (settings (onLoad_ c)) "itemsPerPage";
         labelsLimit := prop (settings (onLoad_ c)) "labelsLimit";
         logsAutorefreshInterval :=
           prop (settings (onLoad_ c)) "logsAutoRefreshTimeInterval";
         resourceAutorefreshInterval :=
           prop (settings (onLoad_ c)) "resourceAutoRefreshTimeInterval";
         disableAccessDeniedNotification :=
           prop (settings (onLoad_ c)) "disableAccessDeniedNotifications";
         namespaceSettings := namespaceSettings (form c) |}.
Proof.
  split; [done |].
  unfold onLoad_. rewrite !setValue_silent. simpl.
  set (c1 := with_settings (externalSettings_ c) c).
  destruct (assign_helper_settings_frame (externalSettings_ c) c1)
    as (_ & Hform & _ & Hhelper & Hcalls).
  assert (calls_since c (assign_helper_settings (externalSettings_ c) c1)
          = [HelperSettings (externalSettings_ c)]) as Hsince
    by (by apply calls_since_app).
  unfold calls_since in *. simpl. rewrite Hsince, Hhelper, Hform.
  repeat split. intros Hin. apply list_elem_of_singleton in Hin. discriminate.
Qed.

(** C4, as the component does it.  A successful save first issues the load
    of its [tap] (permission check, then load request), then fires the
    title hook and then the settings-updated notification, and then reloads:
    no hook fires before the next load request, and both fire between that
    request and the one of the reload. *)
Theorem save_next_loads_before_the_hooks (saved : GlobalSettings) c :
  calls_since c (save_next saved c) =
    [CanI; Load; TitleUpdate; OnSettingsUpdateNext] ++ reload_calls
  ∧ before_next_load (calls_since c (save_next saved c)) = [CanI]
  ∧ hooks_before_next_load (calls_since c (save_next saved c)) = false
  ∧ hooks_before_next_load (after_next_load (calls_since c (save_next saved c))) = true.
Proof.
  assert (calls_since c (save_next saved c) =
            [CanI; Load; TitleUpdate; OnSettingsUpdateNext] ++ reload_calls) as ->.
  { apply calls_since_app. unfold save_next. cbv zeta.
    rewrite onSave__reloads. cbn [is_true].
    destruct (reload_frame (call OnSettingsUpdateNext (call TitleUpdate (load_ c))))
      as (_ & _ & _ & ->).
    simpl. by rewrite <- !app_assoc. }
  done.
Qed.

(** The error handler on a text body: the dialog is opened exactly when the
    body contains the marker, and otherwise [of(false)] is returned. *)
Lemma onSaveError__on_text (body : string) c :
  (onSaveError_ (Some {| error := VStr body |}) c = inr (AfterClosed, call DialogOpen c)
   ↔ contains body concurrentChangeErr_)
  ∧ (onSaveError_ (Some {| error := VStr body |}) c = inr (Of false, c)
     ↔ ¬ contains body concurrentChangeErr_).
Proof.
  unfold onSaveError_. simpl. rewrite <- String_indexOf_found.
  destruct (Z.eqb_spec (String_indexOf body concurrentChangeErr_) (-1)) as [-> | Hne];
    simpl.
  - intuition congruence.
  - intuition congruence.
Qed.

(** An absent error is a generic one. *)
Lemma onSaveError__on_no_error c : onSaveError_ None c = inr (Of false, c).
Proof. reflexivity. Qed.

(** A generic error with a text body, or no error object at all, reloads
    without saving again. *)
Lemma save_error_generic_text (body : string) c :
  ¬ contains body concurrentChangeErr_ →
  save_error (Some {| error := VStr body |}) c = reload c
  ∧ save_error None c = reload c.
Proof.
  intros Hno. unfold save_error.
  apply (onSaveError__on_text body c) in Hno. by rewrite Hno.
Qed.

(** C2, where the component departs from it.  For a failed response whose
    body is [null] the handler neither opens the dialog nor returns
    [of(false)]: [err.error.indexOf] throws. *)
Theorem onSaveError__throws_on_empty_body c :
  onSaveError_ (Some empty_body_error) c = inl TypeError.
Proof. reflexivity. Qed.

(** C6, where the component departs from it.  A save error with a [null]
    body does not match the marker, yet [onSave_] is never reached: nothing
    is reloaded, the thrown error is all that is left of the attempt. *)
Theorem save_error_empty_body_does_not_reload c :
  save_error (Some empty_body_error) c = call (UnhandledError TypeError) c
  ∧ calls_since c (save_error (Some empty_body_error) c) = [UnhandledError TypeError]
  ∧ save_error (Some empty_body_error) c ≠ reload c.
Proof.
  assert (calls_since c (save_error (Some empty_body_error) c)
          = [UnhandledError TypeError]) as Hsince by (by apply calls_since_app).
  repeat split; [done |]. intros Heq. rewrite Heq, calls_since_reload in Hsince.
  discriminate.
Qed.

(** C10, where the component departs from it.  A save attempt that fails
    with a [null] body ends without a reload: after [save] and the failure
    of its request the log holds the save request and the thrown error, no
    load request was issued, and form, settings and flag are as they
    were. *)
Theorem save_attempt_empty_body_ends_without_reload c :
  let c' := save_error (Some empty_body_error) (save c) in
  calls_since c c' = [Save (settings c); UnhandledError TypeError]
  ∧ (Load ∉ calls_since c c')
  ∧ form c' = form c ∧ settings c' = settings c ∧ hasLoadError c' = hasLoadError c.
Proof.
  assert (calls_since c (save_error (Some empty_body_error) (save c))
          = [Save (settings c); UnhandledError TypeError]) as Hsince.
  { apply calls_since_app. simpl. by rewrite <- app_assoc. }
  simpl. simpl in Hsince. rewrite Hsince. repeat split.
  rewrite !elem_of_cons, elem_of_nil. intuition discriminate.
Qed.


End claims.

(** ** With the helper of the specification *)

Section mirrored.
Implicit Types c : @GlobalSettingsComponent mirror_helper.

Lemma settings_valueChanges c : settings (valueChanges c) = form_settings (form c).
Proof. reflexivity. Qed.

Lemma settings_reload c : settings (reload c) = form_settings reset_controls.
Proof. reflexivity. Qed.

Lemma settings_onLoad_ c :
  settings (onLoad_ c) = externalSettings_ c
  ∧ externalSettings_ (onLoad_ c) = externalSettings_ c.
Proof. split; reflexivity. Qed.

Lemma canSave_onLoad_ c : canSave (onLoad_ c) = false.
Proof.
  unfold canSave. destruct (settings_onLoad_ c) as [-> ->].
  by rewrite isEqual_refl.
Qed.

(** C5, as the component does it.  Right after [reload] returns the edited
    settings are the six reset fields, so [canSave] is the negation of the
    load-error flag.  Once the load that [reload] started is answered, by
    [onLoad_] or by [onLoadError_], whatever permission answers came in
    between, [canSave] returns false. *)
Theorem canSave_false_once_reload_is_answered c
    (answers : list bool) (stored : GlobalSettingsService) :
  canSave (reload c) = negb (hasLoadError c)
  ∧ canSave (handle (run (map CanIAnswered answers) (reload c)) (Loaded stored)) = false
  ∧ canSave (handle (run (map CanIAnswered answers) (reload c)) LoadFailed) = false.
Proof.
  split; [| split].
  - unfold canSave. rewrite settings_reload, form_settings_never_external.
    by destruct (reload_frame c) as (-> & _).
  - apply canSave_onLoad_.
  - unfold canSave. simpl. apply andb_false_r.
Qed.

End mirrored.

(** ** Witnesses and counterexamples *)

(** C7 at the component the user has edited and that was then denied: the
    settings differ, the flag is set, saving is blocked. *)
Lemma load_error_blocks_save_witness :
  hasLoadError denied = true ∧ settings denied ≠ externalSettings_ denied
  ∧ canSave denied = false.
Proof.
  assert (hasLoadError denied = true) as Hflag by reflexivity.
  split; [exact Hflag | split].
  - apply isEqual_false. vm_compute. reflexivity.
  - exact (proj2 (proj2 (load_error_blocks_save denied)) Hflag).
Defined.

(** C4 as the specification states it fails: after a successful save of
    the edited component only the permission check precedes the next load
    request, so neither hook has fired before it. *)
Lemma hooks_do_not_precede_next_load :
  before_next_load
    (calls_since edited (save_next (externalSettings_ edited) edited)) = [CanI]
  ∧ hooks_before_next_load
      (calls_since edited (save_next (externalSettings_ edited) edited)) = false
  ∧ ¬ (∀ (helper : SettingsHelperService) (c : GlobalSettingsComponent)
         (saved : GlobalSettings),
          hooks_before_next_load (calls_since c (save_next saved c)) = true).
Proof.
  assert (hooks_before_next_load
            (calls_since edited (save_next (externalSettings_ edited) edited)) = false)
    as Hno by (vm_compute; reflexivity).
  split_and!; [vm_compute; reflexivity | exact Hno |].
  intros H. specialize (H mirror_helper edited (externalSettings_ edited)).
  congruence.
Qed.

(** C5 as the specification states it fails: the user edits, presses
    reload, and right after [reload] has returned [canSave] is still true. *)
Lemma canSave_true_right_after_reload :
  canSave (reload edited) = true
  ∧ ¬ (∀ c : @GlobalSettingsComponent mirror_helper, canSave (reload c) = false).
Proof.
  assert (canSave (reload edited) = true) as Hyes by (vm_compute; reflexivity).
  split; [exact Hyes |]. intros H. specialize (H edited). congruence.
Qed.

(** ** Further properties of the component *)

Section further.
Context {helper : SettingsHelperService}.
Implicit Types c : GlobalSettingsComponent.

Lemma hasLoadError_setValue (ctrl : Controls) (v : control_value ctrl) (emitEvent : bool) c :
  hasLoadError (setValue ctrl v emitEvent c) = hasLoadError c.
Proof.
  unfold setValue. destruct emitEvent; [| done].
  by destruct (valueChanges_frame (with_form (set_control ctrl v (form c)) c)) as (-> & _).
Qed.

Lemma hasLoadError_onLoad_ c : hasLoadError (onLoad_ c) = hasLoadError c.
Proof.
  unfold onLoad_. cbv zeta. rewrite !hasLoadError_setValue.
  exact (proj1 (assign_helper_settings_frame (externalSettings_ c)
                  (with_settings (externalSettings_ c) c))).
Qed.

Lemma hasLoadError_reload c : hasLoadError (reload c) = hasLoadError c.
Proof. by destruct (reload_frame c) as (-> & _). Qed.

Lemma hasLoadError_onSave_ (result : SaveResult) c :
  hasLoadError (onSave_ result c) = hasLoadError c.
Proof. unfold onSave_. rewrite hasLoadError_reload. by destruct (is_true result). Qed.

Lemma hasLoadError_save_error (err : option HttpErrorResponse) c :
  hasLoadError (save_error err c) = hasLoadError c.
Proof.
  unfold save_error, onSaveError_. destruct err as [e |].
  - destruct (indexOf (error e) concurrentChangeErr_) as [thrown | i]; [done |].
    destruct (negb (i =? -1)); [done |]. apply hasLoadError_onSave_.
  - apply hasLoadError_onSave_.
Qed.

(** The outcome of a failed save with a text body, by the marker. *)
Lemma save_error_on_text (body : string) c :
  save_error (Some (text_error body)) c =
    if negb (String_indexOf body concurrentChangeErr_ =? -1)
    then call DialogOpen c else reload c.
Proof.
  unfold save_error, onSaveError_, text_error. simpl.
  by destruct (negb (String_indexOf body concurrentChangeErr_ =? -1)).
Qed.

Lemma save_error_conflict (body : string) c :
  contains body concurrentChangeErr_ →
  save_error (Some (text_error body)) c = call DialogOpen c.
Proof.
  intros Hyes%String_indexOf_found. rewrite save_error_on_text.
  by destruct (Z.eqb_spec (String_indexOf body concurrentChangeErr_) (-1)).
Qed.

Lemma contains_conflict_body : contains conflict_body concurrentChangeErr_.
Proof. by exists "Conflict: ", ".". Qed.

(** X1. [ngOnInit] leaves a component with empty settings and a clear flag
    that has asked once for the permission and once for the settings, in
    that order; its namespace control holds the two namespace fields of the
    external settings; and since the empty object differs from the eight
    external fields, [canSave] is already true while the load is pending. *)
Theorem ngOnInit_pending_load (svc : GlobalSettingsService) :
  calls (ngOnInit svc) = [CanI; Load]
  ∧ settings (ngOnInit svc) = ∅
  ∧ hasLoadError (ngOnInit svc) = false
  ∧ namespaceSettings (form (ngOnInit svc)) =
      Some (prop (externalSettings_ (ngOnInit svc)) "defaultNamespace",
            prop (externalSettings_ (ngOnInit svc)) "namespaceFallbackList")
  ∧ canSave (ngOnInit svc) = true.
Proof.
  split_and!; reflexivity.
Qed.

(** X2. A failed save with a text body never throws and has exactly two
    outcomes: the body contains the marker and the only effect is the
    opening of the dialog, or it does not and the component reloads. *)
Theorem save_error_text_two_outcomes (body : string) c :
  (contains body concurrentChangeErr_
   ∧ save_error (Some (text_error body)) c = call DialogOpen c)
  ∨ (¬ contains body concurrentChangeErr_
     ∧ save_error (Some (text_error body)) c = reload c).
Proof.
  rewrite save_error_on_text, <- String_indexOf_found.
  destruct (Z.eqb_spec (String_indexOf body concurrentChangeErr_) (-1)) as [Heq | Hne].
  - right. split; [| done]. intros H. by apply H.
  - by left.
Qed.

(** X3. A failed save whose body has no [indexOf] ([null], [undefined], a
    number, a boolean) makes the handler throw: the thrown error is the only
    trace, no load request is issued and nothing is saved again. *)
Theorem save_error_throws_without_indexOf (v : value) c :
  has_indexOf v = false →
  onSaveError_ (Some {| error := v |}) c = inl TypeError
  ∧ save_error (Some {| error := v |}) c = call (UnhandledError TypeError) c
  ∧ count_loads (calls_since c (save_error (Some {| error := v |}) c)) = 0%nat
  ∧ count_saves (calls_since c (save_error (Some {| error := v |}) c)) = 0%nat.
Proof.
  intros Hno.
  assert (save_error (Some {| error := v |}) c = call (UnhandledError TypeError) c) as Heq
    by (by destruct v).
  assert (calls_since c (save_error (Some {| error := v |}) c) = [UnhandledError TypeError])
    as -> by (rewrite Heq; by apply calls_since_app).
  split_and!; try done. by destruct v.
Qed.

(** X4. Only the permission answer and the load-error callback write
    [hasLoadError]: a successful load, a reload, a save and each of its
    outcomes, and every form edit leave the flag as it was. *)
Theorem hasLoadError_written_by_load_callbacks_only c :
  hasLoadError (onLoad_ c) = hasLoadError c
  ∧ hasLoadError (reload c) = hasLoadError c
  ∧ hasLoadError (save c) = hasLoadError c
  ∧ (∀ saved, hasLoadError (save_next saved c) = hasLoadError c)
  ∧ (∀ err, hasLoadError (save_error err c) = hasLoadError c)
  ∧ (∀ v, hasLoadError (dialog_closed v c) = hasLoadError c)
  ∧ (∀ ctrl v emitEvent, hasLoadError (setValue ctrl v emitEvent c) = hasLoadError c).
Proof.
  split_and!.
  - apply hasLoadError_onLoad_.
  - apply hasLoadError_reload.
  - done.
  - intros saved. unfold save_next. cbv zeta. by rewrite hasLoadError_onSave_.
  - intros err. apply hasLoadError_save_error.
  - intros v. apply hasLoadError_onSave_.
  - intros. apply hasLoadError_setValue.
Qed.

(** X5. Only the boolean [true] makes [onSave_] save again: the saved
    settings of the success path and any other value the dialog closes with
    ([undefined] when it is dismissed, [false], a truthy value) lead to the
    reload alone. *)
Theorem onSave__saves_again_only_on_true (v : value) (saved : GlobalSettings) c :
  v ≠ VBool true →
  dialog_closed v c = reload c
  ∧ count_saves (calls_since c (dialog_closed v c)) = 0%nat
  ∧ onSave_ (Saved saved) c = reload c.
Proof.
  intros Hv. unfold dialog_closed.
  assert (is_true (Answer v) = false) as Hno.
  { destruct v as [| | [|] | | |]; try done. }
  rewrite calls_since_onSave_, !onSave__reloads, Hno. done.
Qed.

Lemma calls_conflict_round (body : string) c :
  contains body concurrentChangeErr_ →
  calls (conflict_round (Some (text_error body)) c) =
    calls c ++ DialogOpen :: Save (settings c) :: reload_calls.
Proof.
  intros Hyes. unfold conflict_round, dialog_closed.
  rewrite (save_error_conflict body c Hyes), onSave__reloads. cbn [is_true].
  destruct (reload_frame (save (call DialogOpen c))) as (_ & _ & _ & ->).
  simpl. by rewrite <- !app_assoc.
Qed.

Lemma count_saves_app (l1 l2 : list Call) :
  count_saves (l1 ++ l2) = (count_saves l1 + count_saves l2)%nat.
Proof. unfold count_saves. by rewrite filter_app, length_app. Qed.

Lemma count_loads_app (l1 l2 : list Call) :
  count_loads (l1 ++ l2) = (count_loads l1 + count_loads l2)%nat.
Proof. unfold count_loads. by rewrite filter_app, length_app. Qed.

Lemma calls_conflict_rounds (body : string) (n : nat) c :
  contains body concurrentChangeErr_ →
  ∃ l : list Call,
    calls (Nat.iter n (conflict_round (Some (text_error body))) c) = calls c ++ l
    ∧ count_saves l = n ∧ count_loads l = n.
Proof.
  intros Hyes. induction n as [| n (l & Hl & Hsaves & Hloads)].
  - exists []. simpl. by rewrite app_nil_r.
  - exists (l ++ DialogOpen
              :: Save (settings (Nat.iter n (conflict_round (Some (text_error body))) c))
              :: reload_calls).
    split_and!.
    + simpl Nat.iter. rewrite (calls_conflict_round body _ Hyes), Hl.
      by rewrite <- app_assoc.
    + rewrite count_saves_app, Hsaves. unfold count_saves. simpl. lia.
    + rewrite count_loads_app, Hloads. unfold count_loads. simpl. lia.
Qed.

Lemma form_onLoad_ c :
  form (onLoad_ c) =
    {| clusterName := prop (settings (onLoad_ c)) "clusterName";
       itemsPerPage := prop (settings (onLoad_ c)) "itemsPerPage";
       labelsLimit := prop (settings (onLoad_ c)) "labelsLimit";
       logsAutorefreshInterval := prop (settings (onLoad_ c)) "logsAutoRefreshTimeInterval";
       resourceAutorefreshInterval :=
         prop (settings (onLoad_ c)) "resourceAutoRefreshTimeInterval";
       disableAccessDeniedNotification :=
         prop (settings (onLoad_ c)) "disableAccessDeniedNotifications";
       namespaceSettings := namespaceSettings (form c) |}.
Proof.
  unfold onLoad_. rewrite !setValue_silent. simpl.
  destruct (assign_helper_settings_frame (externalSettings_ c)
              (with_settings (externalSettings_ c) c)) as (_ & Hform & _).
  simpl in Hform. by rewrite Hform.
Qed.

(** X6. When a save fails with the conflict marker and the user confirms,
    the second save request carries the same settings as the first, and the
    reload follows it; when the user declines, no second request is made and
    the reload follows the dialog. *)
Theorem confirmed_conflict_resubmits_same_settings (body : string) c :
  contains body concurrentChangeErr_ →
  calls_since c (conflict_round (Some (text_error body)) (save c)) =
    [Save (settings c); DialogOpen; Save (settings c)] ++ reload_calls
  ∧ calls_since c (dialog_closed (VBool false) (save_error (Some (text_error body)) (save c))) =
      [Save (settings c); DialogOpen] ++ reload_calls.
Proof.
  intros Hyes. split; apply calls_since_app.
  - rewrite (calls_conflict_round body _ Hyes). simpl. by rewrite <- app_assoc.
  - unfold dialog_closed.
    rewrite (save_error_conflict body _ Hyes), onSave__reloads. cbn [is_true].
    destruct (reload_frame (call DialogOpen (save c))) as (_ & _ & _ & ->).
    simpl. by rewrite <- !app_assoc.
Qed.

(** X7. There is no limit on the retries: when the save request fails with
    the conflict marker [n] times in a row and the user confirms each time,
    [n + 1] save requests and [n] reloads (one load request each) have been
    issued since the first [save]. *)
Theorem confirmed_conflicts_retry_without_limit (body : string) (n : nat) c :
  contains body concurrentChangeErr_ →
  count_saves
    (calls_since c (Nat.iter n (conflict_round (Some (text_error body))) (save c))) = S n
  ∧ count_loads
      (calls_since c (Nat.iter n (conflict_round (Some (text_error body))) (save c))) = n.
Proof.
  intros Hyes.
  destruct (calls_conflict_rounds body n (save c) Hyes) as (l & Hl & Hsaves & Hloads).
  assert (calls_since c (Nat.iter n (conflict_round (Some (text_error body))) (save c))
          = Save (settings c) :: l) as ->.
  { apply calls_since_app. rewrite Hl. simpl. by rewrite <- app_assoc. }
  split.
  - change (Save (settings c) :: l) with ([Save (settings c)] ++ l).
    by rewrite count_saves_app, Hsaves.
  - change (Save (settings c) :: l) with ([Save (settings c)] ++ l).
    by rewrite count_loads_app, Hloads.
Qed.

(** X8. Between the permission answer and the load-error callback the last
    one to run decides the flag: a failure after the answer leaves it set,
    but an answer after the failure overwrites it with [!canI], so a
    positive answer clears the error of a failed load and [canSave] then
    depends on the settings alone. *)
Theorem hasLoadError_last_writer_wins (canI : bool) c :
  hasLoadError (onLoadError_ (canI_next canI c)) = true
  ∧ hasLoadError (canI_next canI (onLoadError_ c)) = negb canI
  ∧ canSave (canI_next true (onLoadError_ c)) =
      negb (isEqual (settings c) (externalSettings_ c)).
Proof. unfold canSave. simpl. by rewrite andb_true_r. Qed.

(** X9. [reload], in any state: it resets the form, whose change
    notification hands the helper an object with the six form fields all
    [null], then resets the helper, then asks for the permission and the
    settings; every control, the namespace control included, is left
    [null]; one load request is issued and nothing is saved. *)
Theorem reload_mirrors_null_fields c :
  calls_since c (reload c) =
    [FormReset; ValueChanges; HelperSettings (gset_to_gmap VNull form_keys);
     HelperReset; CanI; Load]
  ∧ form (reload c) = reset_controls
  ∧ namespaceSettings (form (reload c)) = None
  ∧ count_loads (calls_since c (reload c)) = 1%nat
  ∧ count_saves (calls_since c (reload c)) = 0%nat.
Proof.
  rewrite calls_since_reload.
  destruct (reload_frame c) as (_ & -> & _).
  by split_and!.
Qed.

(** X10. An edit of the namespace control stores its value and fires the
    change notification, but [onFormChange_] hands the helper the six other
    fields only, exactly as they were before the edit: this component never
    forwards the namespace value. *)
Theorem namespace_edit_mirrors_other_fields (v : NamespaceValue) c :
  calls_since c (setValue NamespaceSettings v true c) =
    [ValueChanges; HelperSettings (form_settings (form c))]
  ∧ namespaceSettings (form (setValue NamespaceSettings v true c)) = v
  ∧ (∀ v' : NamespaceValue,
       form_settings (set_control NamespaceSettings v' (form c)) = form_settings (form c)).
Proof.
  split_and!.
  - by rewrite setValue_emitting.
  - unfold setValue.
    by destruct (valueChanges_frame (with_form (set_control NamespaceSettings v (form c)) c))
      as (_ & -> & _).
  - done.
Qed.

(** X11. When the helper leaves the loaded settings in place, [onLoad_]
    gives each of the six controls the value of its own accessor (page size
    from [getItemsPerPage], log interval from
    [getLogsAutoRefreshTimeInterval], and so on) and leaves the namespace
    control as it was. *)
Theorem onLoad__fills_controls_from_accessors c :
  settings (onLoad_ c) = externalSettings_ c →
  form (onLoad_ c) =
    {| clusterName := getClusterName (settingsService_ c);
       itemsPerPage := getItemsPerPage (settingsService_ c);
       labelsLimit := getLabelsLimit (settingsService_ c);
       logsAutorefreshInterval := getLogsAutoRefreshTimeInterval (settingsService_ c);
       resourceAutorefreshInterval :=
         getResourceAutoRefreshTimeInterval (settingsService_ c);
       disableAccessDeniedNotification :=
         getDisableAccessDeniedNotifications (settingsService_ c);
       namespaceSettings := namespaceSettings (form c) |}.
Proof. intros Hkept. rewrite form_onLoad_, Hkept. reflexivity. Qed.

End further.

(** ** Witnesses of the further properties *)

(** X3 at the body [404], which the HTTP client parses to a number. *)
Lemma save_error_throws_without_indexOf_witness :
  has_indexOf (VNum 404) = false
  ∧ save_error (Some {| error := VNum 404 |}) edited = call (UnhandledError TypeError) edited.
Proof.
  split; [reflexivity |].
  exact (proj1 (proj2 (save_error_throws_without_indexOf (VNum 404) edited eq_refl))).
Defined.

(** X5 at a dismissed dialog, which closes with [undefined]. *)
Lemma onSave__saves_again_only_on_true_witness :
  VUndefined ≠ VBool true ∧ dialog_closed VUndefined edited = reload edited.
Proof.
  assert (VUndefined ≠ VBool true) as Hne by discriminate.
  split; [exact Hne |].
  exact (proj1 (onSave__saves_again_only_on_true VUndefined ∅ edited Hne)).
Defined.

(** X6 at the edited component and the backend's conflict message. *)
Lemma confirmed_conflict_resubmits_same_settings_witness :
  contains conflict_body concurrentChangeErr_
  ∧ calls_since edited (conflict_round (Some (text_error conflict_body)) (save edited)) =
      [Save (settings edited); DialogOpen; Save (settings edited)] ++ reload_calls.
Proof.
  split; [exact contains_conflict_body |].
  exact (proj1 (confirmed_conflict_resubmits_same_settings conflict_body edited
                  contains_conflict_body)).
Defined.

(** X7 at three conflicts in a row: four save requests. *)
Lemma confirmed_conflicts_retry_without_limit_witness :
  contains conflict_body concurrentChangeErr_
  ∧ count_saves
      (calls_since edited
         (Nat.iter 3 (conflict_round (Some (text_error conflict_body))) (save edited)))
    = 4%nat.
Proof.
  split; [exact contains_conflict_body |].
  exact (proj1 (confirmed_conflicts_retry_without_limit conflict_body 3 edited
                  contains_conflict_body)).
Defined.

(** X11 at the first load of a fresh component, with the helper that hands
    back what it is given. *)
Lemma onLoad__fills_controls_from_accessors_witness :
  settings (onLoad_ (ngOnInit (helper:=mirror_helper) stored_settings))
  = externalSettings_ (ngOnInit (helper:=mirror_helper) stored_settings)
  ∧ itemsPerPage (form (onLoad_ (ngOnInit (helper:=mirror_helper) stored_settings)))
    = VNum 10.
Proof.
  assert (settings (onLoad_ (ngOnInit (helper:=mirror_helper) stored_settings))
          = externalSettings_ (ngOnInit (helper:=mirror_helper) stored_settings)) as Hkept
    by reflexivity.
  split; [exact Hkept |].
  exact (f_equal itemsPerPage
           (onLoad__fills_controls_from_accessors
              (ngOnInit (helper:=mirror_helper) stored_settings) Hkept)).
Defined.

(** ** The settings after a form change *)


